(** * vectors.py: the PDF ingestion pipeline of [EmbeddingsManager]

    A shallow embedding of [src/vectors.py].  The module reads three values
    from the process environment, the constructor stores them next to the
    embedding-model settings, and [create_embeddings] drives
    exists -> load -> split -> embed -> upsert, raising a Python exception at
    the first stage that fails.

    Python exceptions are values of an error monad, the vector store and the
    trace of collaborator calls are threaded state, and the libraries that
    the script calls (loader, splitter, embedding model, store client) are
    fields of an interface.

    A [string] is a sequence of bytes; on ASCII text its length and its
    substrings are those of the Python [str]. *)

From Stdlib Require Import ZArith Lia.
From Stdlib Require String.
From stdpp Require Import base option list strings gmap.

(** ** Python exceptions *)

(** The exception classes that occur.  [LibraryError] stands for an exception
    class of one of the libraries (a subclass of [Exception]); [ExitRequest]
    for a class that derives from [BaseException] only, such as
    [KeyboardInterrupt], which [except Exception] lets through. *)
Inductive exc_class : Type :=
  | FileNotFoundError
  | ValueError
  | ConnectionError
  | LibraryError (name : string)
  | ExitRequest (name : string).

(** An exception object: its class, its text ([str(e)]) and [__context__],
    the exception that was being handled when this one was raised.  No
    [raise ... from ...] occurs in the file, so [__cause__] is never set and
    is left out. *)
#[warnings="-register-all"]
Inductive exception : Type :=
  | Exc (cls : exc_class) (msg : string) (context : option exception).

Definition exc_cls (e : exception) : exc_class :=
  match e with Exc c _ _ => c end.

Definition exc_str (e : exception) : string :=
  match e with Exc _ m _ => m end.

Definition exc_context (e : exception) : option exception :=
  match e with Exc _ _ c => c end.

(** [isinstance(e, Exception)]. *)
Definition is_Exception (e : exception) : bool :=
  match exc_cls e with
  | ExitRequest _ => false
  | _ => true
  end.

(** ** Documents, chunks and points *)

Record Document : Type := mkDocument {
  page_content : string;
  metadata : gmap string string
}.

(** A chunk is a document again ([split_documents] returns [Document]s); the
    start offset inside its parent is kept beside the text. *)
Record Chunk : Type := mkChunk {
  chunk_text : string;
  chunk_metadata : gmap string string;
  chunk_start : nat
}.

(** The components of an embedding vector are never inspected by the
    pipeline; integers stand for them. *)
Definition EmbeddingVector : Type := list Z.

(** What the store holds for one chunk. *)
Definition Point : Type := (Chunk * EmbeddingVector)%type.

(** ** ChunkSplitter *)

Module ChunkSplitter.

(** Number of windows of stride [step] that start inside a text of length
    [len]; no window when [step] is 0. *)
Definition window_count (len step : nat) : nat :=
  match step with
  | 0 => 0
  | S _ => (len + step - 1) / step
  end.

(** Modelled from the spec: the body of the text splitter is not part of
    the source file, which only calls it.  Section 4.1: chunk [i+1] begins
    [max_size - overlap] characters after chunk [i] begins, every chunk is
    at most [max_size] characters, and the chunks cover the content without
    gaps; section 8: a 2400-character text gives the start offsets
    0, 750, 1500, 2250.  So chunk [i] is the window of [max_size]
    characters at offset [i * (max_size - overlap)], for every such offset
    that lies inside the text. *)
Definition split_text (max_size overlap : nat) (meta : gmap string string)
    (text : string) : list Chunk :=
  let step := max_size - overlap in
  map (fun i => mkChunk (String.substring (i * step) max_size text) meta (i * step))
      (seq 0 (window_count (String.length text) step)).

Definition split_document (max_size overlap : nat) (d : Document)
    : list Chunk :=
  split_text max_size overlap (metadata d) (page_content d).

(** Modelled from the spec: [split(documents, max_size, overlap)] of
    section 4.1, which fails with a configuration error when
    [overlap >= max_size] and otherwise chunks the documents one after the
    other. *)
Definition split (documents : list Document) (max_size overlap : nat)
    : option (list Chunk) :=
  if decide (overlap < max_size)
  then Some (flat_map (split_document max_size overlap) documents)
  else None.

Definition split_documents (max_size overlap : nat)
    (documents : list Document) : list Chunk :=
  default [] (split documents max_size overlap).

(** [sep.join(parts)] with the empty separator. *)
Definition join (parts : list string) : string :=
  foldr String.append "" parts.

(** Reassembly that accounts for the overlap: of every chunk only the
    first [max_size - overlap] characters are new. *)
Definition reassemble (max_size overlap : nat) (chunks : list Chunk)
    : string :=
  join (map (fun c => String.substring 0 (max_size - overlap) (chunk_text c))
            chunks).

(** The other way to account for it: the first chunk whole, and every
    later chunk without the [overlap] characters it repeats. *)
Definition reassemble_tail (overlap : nat) (chunks : list Chunk) : string :=
  match chunks with
  | [] => ""
  | c :: rest =>
      chunk_text c +:+
      join (map (fun c' => String.substring overlap
                             (String.length (chunk_text c') - overlap)
                             (chunk_text c'))
                rest)
  end.

End ChunkSplitter.

(** ** The world outside the interpreter *)

(** What a path of the file system leads to.  *)
Inductive fs_entry : Type :=
  | RegularFile (readable : bool)
  | Directory.

(** [HuggingFaceBgeEmbeddings(model_name=..., model_kwargs=...,
    encode_kwargs=...)]: the embedding provider object. *)
Record HuggingFaceBgeEmbeddings : Type := mkEmbeddings {
  hf_model_name : string;
  hf_model_kwargs : gmap string string;
  hf_encode_kwargs : gmap string bool
}.

(** One entry per call into the operating system or a library. *)
Inductive event : Type :=
  | EvPathExists (path : string)
  | EvLoadModel (model : HuggingFaceBgeEmbeddings)
  | EvLoaderLoad (path : string)
  | EvSplit (chunk_size chunk_overlap n_docs : nat)
  | EvEmbed (model : HuggingFaceBgeEmbeddings) (text : string)
  | EvUpsert (url api_key collection : option string) (recreate : bool)
             (n_items : nat).

(** The file system, the collections of the vector store (keyed by the value
    passed as [collection_name], which is [None] when the variable is unset)
    and the calls made so far, oldest first. *)
Record World : Type := mkWorld {
  fs : gmap string fs_entry;
  store : gmap (option string) (list Point);
  trace : list event
}.

Definition emit (ev : event) (w : World) : World :=
  mkWorld (fs w) (store w) (trace w ++ [ev]).

Definition set_store (s : gmap (option string) (list Point)) (w : World) : World :=
  mkWorld (fs w) s (trace w).

(** [source_path] references an existing readable file. *)
Definition readable_file (w : World) (path : string) : Prop :=
  fs w !! path = Some (RegularFile true).

(** ** The error-and-state monad *)

Inductive outcome (A : Type) : Type :=
  | Raised (e : exception)
  | Returned (v : A).
Arguments Raised {A} e.
Arguments Returned {A} v.

Definition M (St A : Type) : Type := St -> outcome A * St.

Definition ret {St A} (v : A) : M St A := fun s => (Returned v, s).

Definition bind {St A B} (c : M St A) (k : A -> M St B) : M St B :=
  fun s =>
    match c s with
    | (Returned v, s') => k v s'
    | (Raised e, s') => (Raised e, s')
    end.

(** [raise cls(msg)] outside any handler. *)
Definition raise {St A} (cls : exc_class) (msg : string) : M St A :=
  fun s => (Raised (Exc cls msg None), s).

(** [raise cls(msg)] inside [except ... as e]: Python records [e] as the
    [__context__] of the new exception. *)
Definition raise_handling {St A} (e : exception) (cls : exc_class)
    (msg : string) : M St A :=
  fun s => (Raised (Exc cls msg (Some e)), s).

(** [try: body  except Exception as e: handler e].  What [body] did to the
    state before it raised stays done. *)
Definition try_except {St A} (body : M St A) (handler : exception -> M St A)
    : M St A :=
  fun s =>
    match body s with
    | (Raised e, s') =>
        if is_Exception e then handler e s' else (Raised e, s')
    | r => r
    end.

Declare Scope py_scope.
Delimit Scope py_scope with py.
Notation "x <- c ;; k" := (bind c (fun x => k))
  (at level 100, c at next level, k at level 200, right associativity)
  : py_scope.

Open Scope py_scope.

(** ** The libraries behind the calls *)

(** What the libraries answer.  Their code is not part of the script, so the
    pipeline is stated for every choice of these answers. *)
Class Collaborators : Type := {
  (** [HuggingFaceBgeEmbeddings(...)]: the exception raised while the model
      is set up, if any. *)
  model_failure : HuggingFaceBgeEmbeddings -> option exception;
  (** [UnstructuredPDFLoader(path).load()] on a given file system. *)
  loader_result : gmap string fs_entry -> string -> outcome (list Document);
  (** [RecursiveCharacterTextSplitter(chunk_size, chunk_overlap)
      .split_documents(docs)]; splitting is taken to return. *)
  splitter_result : nat -> nat -> list Document -> list Chunk;
  (** The provider's answer for one text. *)
  embed_result : HuggingFaceBgeEmbeddings -> string -> outcome EmbeddingVector;
  (** Transport, authentication or server-side failure of a request to the
      store at [url] with [api_key] for [collection], if any. *)
  store_failure : option string -> option string -> option string ->
                  option exception
}.

Module VectorStore.

(** Modelled from the spec: the store client is a library outside the
    source file.  Section 6, [upsert(collection_name, items, recreate)];
    section 4.2, with [recreate] the prior contents of the collection are
    discarded; without it the items are added to what is there. *)
Definition upsert (collection : option string) (items : list Point)
    (recreate : bool) (s : gmap (option string) (list Point))
    : gmap (option string) (list Point) :=
  if recreate
  then <[collection := items]> s
  else <[collection := default [] (s !! collection) ++ items]> s.

End VectorStore.

Section Calls.

Context {libs : Collaborators}.

(** [os.path.exists(path)]: true for anything that exists at [path],
    whatever its kind. *)
Definition os_path_exists (path : string) : M World bool :=
  fun w =>
    (Returned (match fs w !! path with Some _ => true | None => false end),
     emit (EvPathExists path) w).

Definition loader_load (path : string) : M World (list Document) :=
  fun w => (loader_result (fs w) path, emit (EvLoaderLoad path) w).

Definition split_documents (chunk_size chunk_overlap : nat)
    (docs : list Document) : M World (list Chunk) :=
  fun w =>
    (Returned (splitter_result chunk_size chunk_overlap docs),
     emit (EvSplit chunk_size chunk_overlap (length docs)) w).

Definition new_embeddings (model_name : string)
    (model_kwargs : gmap string string) (encode_kwargs : gmap string bool)
    : M World HuggingFaceBgeEmbeddings :=
  fun w =>
    let model := mkEmbeddings model_name model_kwargs encode_kwargs in
    (match model_failure model with
     | Some e => Raised e
     | None => Returned model
     end, emit (EvLoadModel model) w).

Definition embed (model : HuggingFaceBgeEmbeddings) (c : Chunk)
    : M World EmbeddingVector :=
  fun w =>
    (embed_result model (chunk_text c), emit (EvEmbed model (chunk_text c)) w).

(** The chunks are embedded in order; the first failure ends the batch. *)
Fixpoint embed_all (model : HuggingFaceBgeEmbeddings) (chunks : list Chunk)
    : M World (list EmbeddingVector) :=
  match chunks with
  | [] => ret []
  | c :: rest =>
      v <- embed model c ;;
      vs <- embed_all model rest ;;
      ret (v :: vs)
  end.

(** The calls to the provider that embedding [chunks] makes. *)
Definition embed_events (model : HuggingFaceBgeEmbeddings)
    (chunks : list Chunk) : list event :=
  map (fun c => EvEmbed model (chunk_text c)) chunks.

(** The provider answers [v] for the text of [c]. *)
Definition embeds_to (model : HuggingFaceBgeEmbeddings) (c : Chunk)
    (v : EmbeddingVector) : Prop :=
  embed_result model (chunk_text c) = Returned v.

Definition store_upsert (url api_key collection : option string)
    (items : list Point) (recreate : bool) : M World unit :=
  fun w =>
    let w' := emit (EvUpsert url api_key collection recreate (length items)) w in
    match store_failure url api_key collection with
    | Some e => (Raised e, w')
    | None =>
        (Returned tt,
         set_store (VectorStore.upsert collection items recreate (store w')) w')
    end.

(** Modelled from the spec: [Qdrant.from_documents] is library code.
    Section 4.2, steps 4 and 5: each chunk is passed through the embedding
    provider, then the full batch of (chunk, vector) pairs is handed to
    [upsert(collection, batch, recreate)]. *)
Definition from_documents (splits : list Chunk)
    (embedding : HuggingFaceBgeEmbeddings) (url : option string)
    (prefer_grpc : bool) (api_key collection_name : option string)
    (force_recreate : bool) : M World unit :=
  vectors <- embed_all embedding splits ;;
  store_upsert url api_key collection_name (zip splits vectors) force_recreate.

End Calls.

(** ** Module-level configuration (lines 15-17) *)

Module Globals.

(** [os.getenv(name)] on the environment left by [load_dotenv()]: the
    value, or [None]. *)
Definition getenv (environ : gmap string string) (name : string)
    : option string :=
  environ !! name.

Definition qdrant_url (environ : gmap string string) : option string :=
  getenv environ "QDRANT_URL".

Definition qdrant_api_key (environ : gmap string string) : option string :=
  getenv environ "QDRANT_API_KEY".

Definition collection_name (environ : gmap string string) : option string :=
  getenv environ "COLLECTION_NAME".

End Globals.

(** ** class EmbeddingsManager *)

Record EmbeddingsManager : Type := mkManager {
  model_name : string;
  device : string;
  encode_kwargs : gmap string bool;
  qdrant_url : option string;
  qdrant_api_key : option string;
  collection_name : option string;
  embeddings : HuggingFaceBgeEmbeddings
}.

(** A method runs on its receiver and on the world. *)
Record State : Type := mkState {
  this : EmbeddingsManager;
  world : World
}.

(** A call that only touches the world, made from inside a method. *)
Definition lift {A} (c : M World A) : M State A :=
  fun s =>
    let (r, w') := c (world s) in (r, mkState (this s) w').

(** Reading [self]. *)
Definition get_self : M State EmbeddingsManager :=
  fun s => (Returned (this s), s).

Definition SUCCESS_MESSAGE : string :=
  "✅ Vector DB Successfully Created and Stored in Qdrant Cloud!".

Section Manager.

Context {libs : Collaborators}.

(** [__init__] with every argument given. *)
Definition __init__ (model_name device : string)
    (encode_kwargs : gmap string bool)
    (qdrant_url qdrant_api_key collection_name : option string)
    : M World EmbeddingsManager :=
  embeddings <- new_embeddings model_name {[ "device" := device ]} encode_kwargs ;;
  ret (mkManager model_name device encode_kwargs
                 qdrant_url qdrant_api_key collection_name embeddings).

(** [EmbeddingsManager()]: every argument takes its default; the last three
    defaults are the module-level values read from the environment. *)
Definition new_default (environ : gmap string string)
    : M World EmbeddingsManager :=
  __init__ "BAAI/bge-small-en" "cpu" {[ "normalize_embeddings" := true ]}
           (Globals.qdrant_url environ) (Globals.qdrant_api_key environ)
           (Globals.collection_name environ).

Definition create_embeddings (pdf_path : string) : M State string :=
  found <- lift (os_path_exists pdf_path) ;;
  if negb found
  then raise FileNotFoundError ("The file " +:+ pdf_path +:+ " does not exist.")
  else
    docs <- lift (loader_load pdf_path) ;;
    match docs with
    | [] => raise ValueError "No documents were loaded from the PDF."
    | _ :: _ =>
        splits <- lift (split_documents 1000 250 docs) ;;
        match splits with
        | [] => raise ValueError "No text chunks were created from the documents."
        | _ :: _ =>
            self <- get_self ;;
            _ <- try_except
                   (lift (from_documents splits (embeddings self)
                            (qdrant_url self) false (qdrant_api_key self)
                            (collection_name self) true))
                   (fun e =>
                      raise_handling e ConnectionError
                        ("Failed to connect to Qdrant Cloud: " +:+ exc_str e)) ;;
            ret SUCCESS_MESSAGE
        end
    end.

(** Running a method on an object in a world. *)
Definition call {A} (method : M State A) (self : EmbeddingsManager)
    (w : World) : outcome A * State :=
  method (mkState self w).

End Manager.

(** The provider object that [EmbeddingsManager()] builds. *)
Definition default_embeddings : HuggingFaceBgeEmbeddings :=
  mkEmbeddings "BAAI/bge-small-en" {[ "device" := "cpu" ]}
               {[ "normalize_embeddings" := true ]}.

(** ** Observing a run *)

(** The calls that running [method] on [self] in [w] adds to the trace. *)
Definition calls_made {A} (method : M State A) (self : EmbeddingsManager)
    (w : World) : list event :=
  drop (length (trace w)) (trace (world (snd (call method self w)))).

(** Calls that reach the embedding provider or the vector store. *)
Definition is_network_call (ev : event) : bool :=
  match ev with
  | EvEmbed _ _ | EvUpsert _ _ _ _ _ => true
  | _ => false
  end.

(** A provider call is made on [model]; a store request goes to [url] with
    [api_key] for [collection] and asks for the collection to be recreated. *)
Definition addressed_to (model : HuggingFaceBgeEmbeddings)
    (url api_key collection : option string) (ev : event) : Prop :=
  match ev with
  | EvEmbed m _ => m = model
  | EvUpsert u k c r _ =>
      u = url /\ k = api_key /\ c = collection /\ r = true
  | _ => True
  end.

(** ** A concrete environment *)

(** [s * n] on Python strings. *)
Fixpoint string_repeat (s : string) (n : nat) : string :=
  match n with
  | 0 => ""
  | S n' => s +:+ string_repeat s n'
  end.

Module Sample.

Definition files : gmap string fs_entry :=
  {[ "/data" := Directory;
     "/data/report.pdf" := RegularFile true;
     "/data/scan.pdf" := RegularFile true;
     "/data/blank.pdf" := RegularFile true;
     "/data/locked.pdf" := RegularFile false ]}.

Definition report : Document :=
  mkDocument (string_repeat "a" 2400) {[ "source" := "/data/report.pdf" ]}.

Definition blank : Document :=
  mkDocument "" {[ "source" := "/data/blank.pdf" ]}.

(** A loader that gets one document out of [report.pdf], an empty one out
    of [blank.pdf], none out of [scan.pdf], and fails on what is not a
    readable file. *)
Definition load (files : gmap string fs_entry) (path : string)
    : outcome (list Document) :=
  match files !! path with
  | Some (RegularFile true) =>
      if decide (path = "/data/report.pdf") then Returned [report]
      else if decide (path = "/data/blank.pdf") then Returned [blank]
      else Returned []
  | Some (RegularFile false) =>
      Raised (Exc (LibraryError "PermissionError") path None)
  | Some Directory =>
      Raised (Exc (LibraryError "IsADirectoryError") path None)
  | None => Raised (Exc FileNotFoundError path None)
  end.

Definition vector_of (text : string) : EmbeddingVector :=
  [Z.of_nat (String.length text)].

Definition timeout : exception :=
  Exc (LibraryError "ResponseHandlingException") "timed out" None.

Definition embedding_error : exception :=
  Exc (LibraryError "EmbeddingError") "model crashed" None.

(** Every library answers. *)
Definition working : Collaborators := {|
  model_failure := fun _ => None;
  loader_result := load;
  splitter_result := ChunkSplitter.split_documents;
  embed_result := fun _ text => Returned (vector_of text);
  store_failure := fun _ _ _ => None
|}.

(** The store does not answer. *)
Definition store_down : Collaborators := {|
  model_failure := fun _ => None;
  loader_result := load;
  splitter_result := ChunkSplitter.split_documents;
  embed_result := fun _ text => Returned (vector_of text);
  store_failure := fun _ _ _ => Some timeout
|}.

(** The embedding provider fails. *)
Definition provider_down : Collaborators := {|
  model_failure := fun _ => None;
  loader_result := load;
  splitter_result := ChunkSplitter.split_documents;
  embed_result := fun _ _ => Raised embedding_error;
  store_failure := fun _ _ _ => None
|}.

Definition interrupt : exception :=
  Exc (ExitRequest "KeyboardInterrupt") "" None.

(** The store request is interrupted from the keyboard. *)
Definition interrupted : Collaborators := {|
  model_failure := fun _ => None;
  loader_result := load;
  splitter_result := ChunkSplitter.split_documents;
  embed_result := fun _ text => Returned (vector_of text);
  store_failure := fun _ _ _ => Some interrupt
|}.

(** An environment with the three variables set. *)
Definition environ : gmap string string :=
  {[ "QDRANT_URL" := "https://qdrant.example";
     "QDRANT_API_KEY" := "key";
     "COLLECTION_NAME" := "papers" ]}.

(** The embedding provider answers for full windows and fails on the first
    shorter one. *)
Definition provider_flaky : Collaborators := {|
  model_failure := fun _ => None;
  loader_result := load;
  splitter_result := ChunkSplitter.split_documents;
  embed_result := fun _ text =>
    if decide (String.length text < 1000)
    then Raised embedding_error
    else Returned (vector_of text);
  store_failure := fun _ _ _ => None
|}.

Definition old_point : Point :=
  (mkChunk "stale" ∅ 0, [7%Z]).

(** A world whose collection [papers] already holds a point. *)
Definition world0 : World :=
  mkWorld files {[ Some "papers" := [old_point] ]} [].

Definition manager : EmbeddingsManager :=
  mkManager "BAAI/bge-small-en" "cpu" {[ "normalize_embeddings" := true ]}
            (Some "https://qdrant.example") (Some "key") (Some "papers")
            default_embeddings.

End Sample.

(** * Properties *)

(** ** Substrings *)

Lemma substring_length (s : string) : forall n m,
  String.length (String.substring n m s) = Nat.min m (String.length s - n).
Proof.
  induction s as [|c s IH]; intros [|n] [|m]; simpl; try reflexivity.
  - rewrite IH. rewrite Nat.sub_0_r. reflexivity.
  - rewrite IH. reflexivity.
  - rewrite IH. reflexivity.
Qed.

Lemma substring_empty (s : string) : forall n, String.substring n 0 s = "".
Proof.
  induction s as [|c s IH]; intros [|n]; simpl; auto.
Qed.

Lemma substring_add (s : string) : forall n a b,
  String.substring n (a + b) s
  = String.substring n a s +:+ String.substring (n + a) b s.
Proof.
  induction s as [|c s IH]; intros [|n] [|a] b; simpl; try reflexivity.
  - change (String c (String.substring 0 (a + b) s)
            = String c (String.substring 0 a s +:+ String.substring a b s)).
    f_equal. apply (IH 0).
  - rewrite substring_empty, Nat.add_0_r. reflexivity.
  - apply (IH n (S a) b).
Qed.

Lemma substring_all (s : string) : forall m,
  String.length s <= m -> String.substring 0 m s = s.
Proof.
  induction s as [|c s IH]; intros [|m] Hm; simpl in *; try reflexivity; try lia.
  f_equal. apply IH. lia.
Qed.

Lemma substring_prefix (s : string) : forall n a b,
  a <= b ->
  String.substring 0 a (String.substring n b s) = String.substring n a s.
Proof.
  induction s as [|c s IH]; intros [|n] [|a] [|b] Hab; simpl;
    rewrite ?substring_empty; try reflexivity; try lia.
  - f_equal. apply (IH 0). lia.
  - apply (IH n (S a) (S b)). lia.
Qed.

Lemma substring_suffix (s : string) : forall n a b,
  String.substring a (b - a) (String.substring n b s)
  = String.substring (n + a) (b - a) s.
Proof.
  induction s as [|c s IH]; intros [|n] a b.
  - destruct a, b; reflexivity.
  - destruct a, b; reflexivity.
  - destruct a as [|a].
    + rewrite Nat.sub_0_r. apply (substring_prefix _ 0 b b). lia.
    + destruct b as [|b]; simpl.
      * rewrite substring_empty. reflexivity.
      * apply (IH 0 a b).
  - simpl. apply IH.
Qed.

Lemma substring_beyond (s : string) : forall n m,
  String.length s - n <= m ->
  String.substring n m s = String.substring n (String.length s - n) s.
Proof.
  induction s as [|c s IH]; intros [|n] [|m] Hm; simpl in *;
    try reflexivity; try lia.
  - f_equal. rewrite (IH 0 m) by lia. rewrite Nat.sub_0_r. reflexivity.
  - rewrite (IH n 0) by lia. reflexivity.
  - apply IH. lia.
Qed.

(** ** The chunk splitter *)

Lemma window_count_covers (len step : nat) :
  0 < step -> len <= ChunkSplitter.window_count len step * step.
Proof.
  intros Hstep. unfold ChunkSplitter.window_count.
  destruct step as [|k]; [lia|].
  pose proof (Nat.div_mod_eq (len + S k - 1) (S k)) as E.
  pose proof (Nat.mod_upper_bound (len + S k - 1) (S k)) as B.
  nia.
Qed.

Lemma window_count_inside (len step i : nat) :
  i < ChunkSplitter.window_count len step -> i * step < len.
Proof.
  unfold ChunkSplitter.window_count.
  destruct step as [|k]; [lia|]. intros Hi.
  pose proof (Nat.div_mod_eq (len + S k - 1) (S k)) as E.
  nia.
Qed.

Lemma join_windows (text : string) (base step : nat) : forall k a,
  ChunkSplitter.join
    (map (fun i => String.substring (base + i * step) step text) (seq a k))
  = String.substring (base + a * step) (k * step) text.
Proof.
  induction k as [|k IH]; intros a.
  - simpl. rewrite substring_empty. reflexivity.
  - change (seq a (S k)) with (a :: seq (S a) k).
    change (S k * step) with (step + k * step).
    rewrite substring_add.
    change (ChunkSplitter.join (map ?f (?x :: ?l)))
      with (f x +:+ ChunkSplitter.join (map f l)).
    rewrite IH. f_equal. f_equal. lia.
Qed.

Section SplitterContract.

Variables max_size overlap : nat.
Hypothesis overlap_below_max : overlap < max_size.

Let step := max_size - overlap.

Lemma split_text_lookup meta text i c :
  ChunkSplitter.split_text max_size overlap meta text !! i = Some c ->
  i * step < String.length text /\
  c = mkChunk (String.substring (i * step) max_size text) meta (i * step).
Proof.
  unfold ChunkSplitter.split_text. fold step.
  rewrite list_lookup_fmap.
  destruct (seq 0 _ !! i) as [j|] eqn:E; [|discriminate].
  apply lookup_seq in E as [-> Hi]. simpl. intros [= <-].
  split; [|reflexivity]. apply window_count_inside. exact Hi.
Qed.

Lemma split_text_bounded meta text :
  Forall (fun c => String.length (chunk_text c) <= max_size)
         (ChunkSplitter.split_text max_size overlap meta text).
Proof.
  apply Forall_lookup_2. intros i c Hc.
  apply split_text_lookup in Hc as [_ ->]. simpl.
  rewrite substring_length. lia.
Qed.

Lemma split_text_profile meta text :
  map (fun c => (chunk_start c, String.length (chunk_text c)))
      (ChunkSplitter.split_text max_size overlap meta text)
  = map (fun i => (i * step, Nat.min max_size (String.length text - i * step)))
        (seq 0 (ChunkSplitter.window_count (String.length text) step)).
Proof.
  unfold ChunkSplitter.split_text. fold step. rewrite map_map.
  apply map_ext. intros i. simpl. rewrite substring_length. reflexivity.
Qed.

Lemma reassemble_split_text meta text :
  ChunkSplitter.reassemble max_size overlap
    (ChunkSplitter.split_text max_size overlap meta text) = text.
Proof.
  unfold ChunkSplitter.reassemble, ChunkSplitter.split_text. fold step.
  rewrite map_map. simpl.
  rewrite (map_ext _ (fun i => String.substring (0 + i * step) step text)).
  - rewrite join_windows. simpl. apply substring_all.
    apply window_count_covers. unfold step. lia.
  - intros i. apply substring_prefix. unfold step. lia.
Qed.

Lemma reassemble_tail_split_text meta text :
  ChunkSplitter.reassemble_tail overlap
    (ChunkSplitter.split_text max_size overlap meta text) = text.
Proof.
  unfold ChunkSplitter.split_text. fold step.
  pose proof (window_count_covers (String.length text) step) as Hcov.
  destruct (ChunkSplitter.window_count (String.length text) step) as [|k].
  - destruct text; [reflexivity|]. simpl in Hcov. unfold step in Hcov. lia.
  - change (seq 0 (S k)) with (0 :: seq 1 k).
    rewrite map_cons. unfold ChunkSplitter.reassemble_tail.
    rewrite map_map. simpl.
    rewrite (map_ext _ (fun i => String.substring (overlap + i * step) step text)).
    + rewrite join_windows.
      replace (overlap + 1 * step) with (0 + max_size) by (unfold step; lia).
      rewrite <- substring_add. apply substring_all.
      unfold step in *. lia.
    + intros i.
      set (t := String.substring (i * step) max_size text).
      rewrite <- (substring_beyond t overlap (max_size - overlap)).
      * unfold t. rewrite substring_suffix. f_equal. lia.
      * unfold t. rewrite substring_length. lia.
Qed.

End SplitterContract.

(** C2.  For every non-empty sequence of documents, the chunk splitter called
    with max_size = 1000 and overlap = 250 succeeds and chunks the documents
    one after the other; every chunk is at most 1000 characters long; for
    each document the chunks put together again (keeping of each chunk the
    750 characters that are new, or dropping from each chunk after the first
    the 250 it repeats) give back the content exactly; every chunk is the
    window of its parent at its start offset, the first offset is 0 and
    chunk i+1 begins 1000 - 250 characters after chunk i; and a single
    document of 2400 characters gives exactly the four chunks starting at
    0, 750, 1500, 2250, of lengths 1000, 1000, 900 and 150. *)
Theorem chunk_splitter_contract (docs : list Document) :
  docs <> [] ->
  let chunks := ChunkSplitter.split_documents 1000 250 docs in
  ChunkSplitter.split docs 1000 250 = Some chunks /\
  chunks = flat_map (ChunkSplitter.split_document 1000 250) docs /\
  Forall (fun c => String.length (chunk_text c) <= 1000) chunks /\
  (forall d, d ∈ docs ->
     let cs := ChunkSplitter.split_document 1000 250 d in
     ChunkSplitter.reassemble 1000 250 cs = page_content d /\
     ChunkSplitter.reassemble_tail 250 cs = page_content d /\
     (forall i c, cs !! i = Some c ->
        chunk_text c = String.substring (chunk_start c) 1000 (page_content d) /\
        chunk_start c < String.length (page_content d) /\
        chunk_metadata c = metadata d) /\
     (forall c, cs !! 0 = Some c -> chunk_start c = 0) /\
     (forall i c c', cs !! i = Some c -> cs !! S i = Some c' ->
        chunk_start c' = chunk_start c + (1000 - 250))) /\
  (forall d, String.length (page_content d) = 2400 ->
     map (fun c => (chunk_start c, String.length (chunk_text c)))
         (ChunkSplitter.split_documents 1000 250 [d])
     = [(0, 1000); (750, 1000); (1500, 900); (2250, 150)]).
Proof.
  intros _ chunks.
  assert (Hlt : 250 < 1000) by lia.
  assert (Hall : forall ds, ChunkSplitter.split_documents 1000 250 ds
                 = flat_map (ChunkSplitter.split_document 1000 250) ds).
  { intros ds. unfold ChunkSplitter.split_documents, ChunkSplitter.split.
    destruct (decide (250 < 1000)); [reflexivity | lia]. }
  split; [|split; [|split; [|split]]].
  - unfold chunks, ChunkSplitter.split_documents, ChunkSplitter.split.
    destruct (decide (250 < 1000)); [reflexivity | lia].
  - apply Hall.
  - unfold chunks. rewrite Hall. clear chunks.
    induction docs as [|d ds IH]; [constructor|].
    change (flat_map ?f (d :: ds)) with (f d ++ flat_map f ds).
    apply Forall_app. split; [|exact IH].
    apply split_text_bounded. exact Hlt.
  - intros d _ cs. unfold cs, ChunkSplitter.split_document.
    split; [apply reassemble_split_text; exact Hlt|].
    split; [apply reassemble_tail_split_text; exact Hlt|].
    split; [|split].
    + intros i c Hc. apply split_text_lookup in Hc as [Hin ->]. auto.
    + intros c Hc. apply split_text_lookup in Hc as [_ ->]. reflexivity.
    + intros i c c' Hc Hc'.
      apply split_text_lookup in Hc as [_ ->].
      apply split_text_lookup in Hc' as [_ ->].
      unfold chunk_start. lia.
  - intros d Hlen. rewrite Hall.
    change (flat_map ?f [d]) with (f d ++ []). rewrite app_nil_r.
    unfold ChunkSplitter.split_document.
    rewrite split_text_profile, Hlen. vm_compute. reflexivity.
Qed.

Lemma chunk_splitter_contract_witness :
  [Sample.report] <> [] /\
  Forall (fun c => String.length (chunk_text c) <= 1000)
         (ChunkSplitter.split_documents 1000 250 [Sample.report]).
Proof.
  split.
  - discriminate.
  - apply (chunk_splitter_contract [Sample.report]). discriminate.
Defined.

(** ** The vector store *)

Lemma upsert_recreate_discards (collection : option string) (items : list Point) (s : gmap (option string) (list Point)) :
  VectorStore.upsert collection items true s !! collection = Some items.
Proof. unfold VectorStore.upsert. apply lookup_insert_eq. Qed.

Lemma upsert_append_keeps (collection : option string) (items : list Point) (s : gmap (option string) (list Point)) :
  VectorStore.upsert collection items false s !! collection
  = Some (default [] (s !! collection) ++ items).
Proof. unfold VectorStore.upsert. apply lookup_insert_eq. Qed.

Lemma upsert_other (collection other : option string) (items : list Point) (recreate : bool)
    (s : gmap (option string) (list Point)) :
  collection <> other ->
  VectorStore.upsert collection items recreate s !! other = s !! other.
Proof.
  intros Hne. unfold VectorStore.upsert.
  destruct recreate; apply lookup_insert_ne; exact Hne.
Qed.

(** ** The pipeline *)

Section Pipeline.

Context {libs : Collaborators}.

Lemma embed_all_returns model chunks : forall vectors w,
  Forall2 (embeds_to model) chunks vectors ->
  embed_all model chunks w
  = (Returned vectors,
     mkWorld (fs w) (store w) (trace w ++ embed_events model chunks)).
Proof.
  induction chunks as [|c rest IH]; intros vectors w Hall.
  - apply Forall2_nil_inv_l in Hall as ->. simpl.
    rewrite app_nil_r. destruct w; reflexivity.
  - apply Forall2_cons_inv_l in Hall as (v & vs & Hv & Hvs & ->).
    simpl. unfold bind, embed at 1. rewrite Hv.
    rewrite (IH vs _ Hvs). unfold ret, emit. simpl.
    rewrite <- app_assoc. reflexivity.
Qed.

Lemma embed_all_returned model chunks : forall vectors w w',
  embed_all model chunks w = (Returned vectors, w') ->
  Forall2 (embeds_to model) chunks vectors.
Proof.
  induction chunks as [|c rest IH]; intros vectors w w'.
  - simpl. unfold ret. intros [= <- _]. constructor.
  - simpl. unfold bind, embed at 1.
    destruct (embed_result model (chunk_text c)) as [e|v] eqn:Hv; [discriminate|].
    destruct (embed_all model rest _) as [[e|vs] w''] eqn:Hrest; [discriminate|].
    unfold ret. intros [= <- _]. constructor; [exact Hv|].
    eapply IH. exact Hrest.
Qed.

Lemma embed_all_raises model before c after e : forall vectors w,
  Forall2 (embeds_to model) before vectors ->
  embed_result model (chunk_text c) = Raised e ->
  embed_all model (before ++ c :: after) w
  = (Raised e,
     mkWorld (fs w) (store w)
             (trace w ++ embed_events model (before ++ [c]))).
Proof.
  induction before as [|b rest IH]; intros vectors w Hall He.
  - simpl. unfold bind, embed at 1. rewrite He. reflexivity.
  - apply Forall2_cons_inv_l in Hall as (v & vs & Hv & Hvs & ->).
    simpl. unfold bind, embed at 1. rewrite Hv.
    rewrite (IH vs _ Hvs He). unfold emit. simpl.
    rewrite <- app_assoc. reflexivity.
Qed.

(** [create_embeddings] stage by stage. *)
Lemma create_embeddings_stages self w path :
  call (create_embeddings path) self w =
  let w1 := emit (EvPathExists path) w in
  match fs w !! path with
  | None =>
      (Raised (Exc FileNotFoundError
                 ("The file " +:+ path +:+ " does not exist.") None),
       mkState self w1)
  | Some _ =>
      let w2 := emit (EvLoaderLoad path) w1 in
      match loader_result (fs w) path with
      | Raised e => (Raised e, mkState self w2)
      | Returned [] =>
          (Raised (Exc ValueError "No documents were loaded from the PDF." None),
           mkState self w2)
      | Returned docs =>
          let w3 := emit (EvSplit 1000 250 (length docs)) w2 in
          match splitter_result 1000 250 docs with
          | [] =>
              (Raised (Exc ValueError
                         "No text chunks were created from the documents." None),
               mkState self w3)
          | splits =>
              match from_documents splits (embeddings self) (qdrant_url self)
                      false (qdrant_api_key self) (collection_name self) true w3
              with
              | (Returned _, w4) => (Returned SUCCESS_MESSAGE, mkState self w4)
              | (Raised e, w4) =>
                  if is_Exception e
                  then (Raised (Exc ConnectionError
                                  ("Failed to connect to Qdrant Cloud: " +:+ exc_str e)
                                  (Some e)),
                        mkState self w4)
                  else (Raised e, mkState self w4)
              end
          end
      end
  end.
Proof.
  unfold call, create_embeddings, bind, lift, os_path_exists, loader_load,
    split_documents, get_self, try_except, raise, raise_handling, ret.
  cbn -[from_documents String.append].
  destruct (fs w !! path) as [entry|]; [|reflexivity].
  cbn -[from_documents String.append].
  destruct (loader_result (fs w) path) as [e|[|d ds]]; try reflexivity.
  destruct (splitter_result 1000 250 (d :: ds)) as [|c cs]; [reflexivity|].
  destruct (from_documents _ _ _ _ _ _ _ _) as [[e|u] w4].
  - destruct (is_Exception e); reflexivity.
  - reflexivity.
Qed.

(** The three ways [from_documents] can end. *)
Lemma from_documents_stored splits model url grpc key coll recreate vectors w :
  Forall2 (embeds_to model) splits vectors ->
  store_failure url key coll = None ->
  from_documents splits model url grpc key coll recreate w
  = (Returned tt,
     mkWorld (fs w)
       (VectorStore.upsert coll (zip splits vectors) recreate (store w))
       (trace w ++ embed_events model splits
          ++ [EvUpsert url key coll recreate (length (zip splits vectors))])).
Proof.
  intros Hall Hstore. unfold from_documents, bind.
  rewrite (embed_all_returns _ _ _ _ Hall).
  unfold store_upsert. rewrite Hstore. unfold set_store, emit. simpl.
  rewrite <- app_assoc. reflexivity.
Qed.

Lemma from_documents_store_raises splits model url grpc key coll recreate
    vectors e w :
  Forall2 (embeds_to model) splits vectors ->
  store_failure url key coll = Some e ->
  from_documents splits model url grpc key coll recreate w
  = (Raised e,
     mkWorld (fs w) (store w)
       (trace w ++ embed_events model splits
          ++ [EvUpsert url key coll recreate (length (zip splits vectors))])).
Proof.
  intros Hall Hstore. unfold from_documents, bind.
  rewrite (embed_all_returns _ _ _ _ Hall).
  unfold store_upsert. rewrite Hstore. unfold emit. simpl.
  rewrite <- app_assoc. reflexivity.
Qed.

Lemma from_documents_embed_raises before c after model url grpc key coll
    recreate vectors e w :
  Forall2 (embeds_to model) before vectors ->
  embed_result model (chunk_text c) = Raised e ->
  from_documents (before ++ c :: after) model url grpc key coll recreate w
  = (Raised e,
     mkWorld (fs w) (store w)
       (trace w ++ embed_events model (before ++ [c]))).
Proof.
  intros Hall He. unfold from_documents, bind.
  rewrite (embed_all_raises _ _ _ _ _ _ _ Hall He). reflexivity.
Qed.

Lemma from_documents_returned splits model url grpc key coll recreate w u w' :
  from_documents splits model url grpc key coll recreate w = (Returned u, w') ->
  exists vectors,
    Forall2 (embeds_to model) splits vectors /\
    store_failure url key coll = None /\
    w' = mkWorld (fs w)
           (VectorStore.upsert coll (zip splits vectors) recreate (store w))
           (trace w ++ embed_events model splits
              ++ [EvUpsert url key coll recreate (length (zip splits vectors))]).
Proof.
  intros Hrun.
  destruct (embed_all model splits w) as [[e|vectors] w1] eqn:Hembed.
  - unfold from_documents, bind in Hrun. rewrite Hembed in Hrun. discriminate.
  - pose proof (embed_all_returned _ _ _ _ _ Hembed) as Hall.
    exists vectors. split; [exact Hall|].
    destruct (store_failure url key coll) as [e|] eqn:Hstore.
    + rewrite (from_documents_store_raises _ _ _ grpc _ _ recreate _ _ w Hall Hstore) in Hrun.
      discriminate.
    + rewrite (from_documents_stored _ _ _ grpc _ _ recreate _ w Hall Hstore) in Hrun.
      split; [reflexivity|]. congruence.
Qed.

(** Calls are only ever added to the trace. *)
Lemma embed_all_trace model chunks : forall w,
  exists evs, trace (snd (embed_all model chunks w)) = trace w ++ evs.
Proof.
  induction chunks as [|c rest IH]; intros w.
  - exists []. simpl. rewrite app_nil_r. reflexivity.
  - simpl. unfold bind, embed at 1.
    destruct (embed_result model (chunk_text c)) as [e|v].
    + exists [EvEmbed model (chunk_text c)]. reflexivity.
    + destruct (IH (emit (EvEmbed model (chunk_text c)) w)) as [evs Hevs].
      destruct (embed_all model rest _) as [[e|vs] w1];
        exists (EvEmbed model (chunk_text c) :: evs);
        simpl in *; rewrite Hevs, <- app_assoc; reflexivity.
Qed.

Lemma from_documents_trace splits model url grpc key coll recreate w :
  exists evs,
    trace (snd (from_documents splits model url grpc key coll recreate w))
    = trace w ++ evs.
Proof.
  unfold from_documents, bind.
  destruct (embed_all_trace model splits w) as [evs Hevs].
  destruct (embed_all model splits w) as [[e|vectors] w1].
  - exists evs. exact Hevs.
  - unfold store_upsert. simpl in Hevs.
    exists (evs ++ [EvUpsert url key coll recreate (length (zip splits vectors))]).
    destruct (store_failure url key coll); simpl;
      rewrite Hevs, <- app_assoc; reflexivity.
Qed.

(** X2.  Whatever exists at the path, file or not, gets past the existence
    test: the loader is called next, on the same path. *)
Lemma existing_path_reaches_loader self w path :
  is_Some (fs w !! path) ->
  exists evs,
    trace (world (snd (call (create_embeddings path) self w)))
    = trace w ++ EvPathExists path :: EvLoaderLoad path :: evs.
Proof.
  intros [entry Hentry]. rewrite create_embeddings_stages, Hentry. cbv zeta.
  destruct (loader_result (fs w) path) as [e|[|d ds]].
  - exists []. simpl. rewrite <- app_assoc. reflexivity.
  - exists []. simpl. rewrite <- app_assoc. reflexivity.
  - destruct (splitter_result 1000 250 (d :: ds)) as [|c cs].
    + exists [EvSplit 1000 250 (length (d :: ds))].
      simpl. rewrite <- !app_assoc. reflexivity.
    + match goal with
      | |- context [from_documents ?a ?b ?c ?d ?e ?f ?g ?h] =>
          destruct (from_documents_trace a b c d e f g h) as [evs Hevs];
          destruct (from_documents a b c d e f g h) as [[e0|u] w4]
      end.
      * exists (EvSplit 1000 250 (length (d :: ds)) :: evs).
        simpl in Hevs.
        destruct (is_Exception e0); simpl; rewrite Hevs, <- !app_assoc;
          reflexivity.
      * exists (EvSplit 1000 250 (length (d :: ds)) :: evs).
        simpl in Hevs. simpl. rewrite Hevs, <- !app_assoc. reflexivity.
Qed.

(** C1.  On a successful call the collection named by [collection_name]
    holds exactly the chunks of this call, each with its vector: the
    loaded documents, split with 1000/250 and embedded in order.  What the
    collection held before is gone: the store after the call is the store
    before it with that collection replaced, by an upsert issued with
    [recreate = true] as the last call of the run. *)
Theorem ingest_replaces_collection self w path msg st' :
  call (create_embeddings path) self w = (Returned msg, st') ->
  exists docs vectors,
    loader_result (fs w) path = Returned docs /\
    let splits := splitter_result 1000 250 docs in
    Forall2 (embeds_to (embeddings self)) splits vectors /\
    store (world st') !! collection_name self = Some (zip splits vectors) /\
    store (world st')
    = <[collection_name self := zip splits vectors]> (store w) /\
    last (trace (world st'))
    = Some (EvUpsert (qdrant_url self) (qdrant_api_key self)
              (collection_name self) true (length splits)).
Proof.
  rewrite create_embeddings_stages. cbv zeta.
  destruct (fs w !! path) as [entry|]; [|discriminate].
  destruct (loader_result (fs w) path) as [e|[|d ds]]; try discriminate.
  destruct (splitter_result 1000 250 (d :: ds)) as [|c cs] eqn:Hsplit;
    [discriminate|].
  destruct (from_documents _ _ _ _ _ _ _ _) as [[e|u] w4] eqn:Hrun.
  { destruct (is_Exception e); discriminate. }
  intros [= <- <-].
  apply from_documents_returned in Hrun as (vectors & Hall & _ & ->).
  exists (d :: ds), vectors. split; [reflexivity|].
  rewrite Hsplit. cbn [world store trace].
  split; [exact Hall|]. split; [apply upsert_recreate_discards|].
  split; [reflexivity|].
  rewrite !app_assoc, last_snoc. do 2 f_equal.
  rewrite length_zip. apply Forall2_length in Hall. lia.
Qed.

(** C3, as the code has it.  When nothing exists at the path
    ([os.path.exists] is false), the call raises [FileNotFoundError] naming
    the path, and the existence test is the only call it has made: neither
    the loader nor the embedding provider nor the store is reached. *)
Theorem missing_path_fails_first self w path :
  fs w !! path = None ->
  call (create_embeddings path) self w
  = (Raised (Exc FileNotFoundError
               ("The file " +:+ path +:+ " does not exist.") None),
     mkState self (emit (EvPathExists path) w)).
Proof.
  intros Hmissing. rewrite create_embeddings_stages, Hmissing. reflexivity.
Qed.

(** C4.  When the loader runs and yields no document, the call raises
    [ValueError] ("No documents were loaded from the PDF.") and stops: the
    existence test and the loader are the only calls made, so nothing is
    split, embedded or upserted. *)
Theorem empty_load_fails self w path :
  is_Some (fs w !! path) ->
  loader_result (fs w) path = Returned [] ->
  call (create_embeddings path) self w
  = (Raised (Exc ValueError "No documents were loaded from the PDF." None),
     mkState self (emit (EvLoaderLoad path) (emit (EvPathExists path) w))).
Proof.
  intros [entry Hentry] Hload.
  rewrite create_embeddings_stages, Hentry, Hload. reflexivity.
Qed.

(** C5.  When the loader yields documents and splitting them with chunk
    size 1000 and overlap 250 yields no chunk, the call raises [ValueError]
    ("No text chunks were created from the documents.") and stops after
    the splitter: nothing is embedded or upserted. *)
Theorem empty_split_fails self w path docs :
  is_Some (fs w !! path) ->
  loader_result (fs w) path = Returned docs ->
  docs <> [] ->
  splitter_result 1000 250 docs = [] ->
  call (create_embeddings path) self w
  = (Raised (Exc ValueError
               "No text chunks were created from the documents." None),
     mkState self
       (emit (EvSplit 1000 250 (length docs))
          (emit (EvLoaderLoad path) (emit (EvPathExists path) w)))).
Proof.
  intros [entry Hentry] Hload Hdocs Hsplit.
  rewrite create_embeddings_stages, Hentry, Hload.
  destruct docs as [|d ds]; [congruence|].
  cbv zeta. rewrite Hsplit. reflexivity.
Qed.

(** C6.  When the run reaches the upsert (the chunks are embedded) and
    the store request raises an exception [e], the call catches it and
    raises [ConnectionError] instead; the new exception carries the text of
    [e] in its message and [e] itself as its context.  The store is left as
    it was. *)
Theorem store_failure_wrapped self w path docs vectors e :
  is_Some (fs w !! path) ->
  loader_result (fs w) path = Returned docs ->
  docs <> [] ->
  splitter_result 1000 250 docs <> [] ->
  Forall2 (embeds_to (embeddings self)) (splitter_result 1000 250 docs) vectors ->
  store_failure (qdrant_url self) (qdrant_api_key self) (collection_name self)
  = Some e ->
  is_Exception e = true ->
  exists st',
    call (create_embeddings path) self w
    = (Raised (Exc ConnectionError
                 ("Failed to connect to Qdrant Cloud: " +:+ exc_str e)
                 (Some e)),
       st') /\
    store (world st') = store w.
Proof.
  intros [entry Hentry] Hload Hdocs Hsplit Hall Hstore Hexc.
  rewrite create_embeddings_stages, Hentry, Hload.
  destruct docs as [|d ds]; [congruence|]. cbv zeta.
  destruct (splitter_result 1000 250 (d :: ds)) as [|c cs] eqn:Hcs;
    [congruence|].
  rewrite (from_documents_store_raises _ _ _ _ _ _ _ _ _ _ Hall Hstore), Hexc.
  eexists. split; reflexivity.
Qed.

(** X9.  A [BaseException] that is not an [Exception] (an interrupt during
    the store request) is not caught by [except Exception]: it reaches the
    caller as it is, not wrapped in a [ConnectionError]. *)
Lemma exit_request_passes_through self w path docs vectors e :
  is_Some (fs w !! path) ->
  loader_result (fs w) path = Returned docs ->
  docs <> [] ->
  splitter_result 1000 250 docs <> [] ->
  Forall2 (embeds_to (embeddings self)) (splitter_result 1000 250 docs) vectors ->
  store_failure (qdrant_url self) (qdrant_api_key self) (collection_name self)
  = Some e ->
  is_Exception e = false ->
  fst (call (create_embeddings path) self w) = Raised e.
Proof.
  intros [entry Hentry] Hload Hdocs Hsplit Hall Hstore Hexc.
  rewrite create_embeddings_stages, Hentry, Hload.
  destruct docs as [|d ds]; [congruence|]. cbv zeta.
  destruct (splitter_result 1000 250 (d :: ds)) as [|c cs] eqn:Hcs;
    [congruence|].
  rewrite (from_documents_store_raises _ _ _ _ _ _ _ _ _ _ Hall Hstore), Hexc.
  reflexivity.
Qed.

(** C7, as the code has it.  When the embedding provider raises an
    exception [e] on a chunk, the failure happens inside the same [try] as
    the store request: it is caught and re-signalled as [ConnectionError],
    with the text of [e] in the message and [e] as context. *)
Theorem provider_failure_wrapped self w path docs before c after vectors e :
  is_Some (fs w !! path) ->
  loader_result (fs w) path = Returned docs ->
  docs <> [] ->
  splitter_result 1000 250 docs = before ++ c :: after ->
  Forall2 (embeds_to (embeddings self)) before vectors ->
  embed_result (embeddings self) (chunk_text c) = Raised e ->
  is_Exception e = true ->
  fst (call (create_embeddings path) self w)
  = Raised (Exc ConnectionError
              ("Failed to connect to Qdrant Cloud: " +:+ exc_str e)
              (Some e)).
Proof.
  intros [entry Hentry] Hload Hdocs Hsplit Hall He Hexc.
  rewrite create_embeddings_stages, Hentry, Hload.
  destruct docs as [|d ds]; [congruence|]. cbv zeta.
  rewrite Hsplit.
  destruct (before ++ c :: after) as [|c0 cs] eqn:Hcs.
  { destruct before; discriminate. }
  rewrite <- Hcs.
  rewrite (from_documents_embed_raises _ _ _ _ _ _ _ _ _ _ _ _ Hall He), Hexc.
  reflexivity.
Qed.

(** C8, as the code has it.  When any of [QDRANT_URL], [QDRANT_API_KEY],
    [COLLECTION_NAME] is absent from the environment, construction with the
    default arguments raises nothing on that account: it builds the
    embedding model, which is the only step that can raise, and the object
    it returns has in [qdrant_url], [qdrant_api_key], [collection_name]
    what the environment gave, [None] where it gave nothing. *)
Theorem absent_configuration_stored environ w :
  Globals.qdrant_url environ = None \/
  Globals.qdrant_api_key environ = None \/
  Globals.collection_name environ = None ->
  new_default environ w
  = (match model_failure default_embeddings with
     | Some e => Raised e
     | None =>
         Returned
           (mkManager "BAAI/bge-small-en" "cpu"
              {[ "normalize_embeddings" := true ]}
              (environ !! "QDRANT_URL") (environ !! "QDRANT_API_KEY")
              (environ !! "COLLECTION_NAME") default_embeddings)
     end,
     emit (EvLoadModel default_embeddings) w).
Proof.
  intros _. unfold new_default, __init__, bind, new_embeddings, ret.
  fold default_embeddings.
  destruct (model_failure default_embeddings); reflexivity.
Qed.

(** C9.  Whatever the outcome of [create_embeddings], the receiver after
    the call is the receiver before it: [model_name], [device],
    [encode_kwargs], [qdrant_url], [qdrant_api_key], [collection_name] and
    [embeddings] are all unchanged. *)
Theorem configuration_unchanged self w path :
  let self' := this (snd (call (create_embeddings path) self w)) in
  self' = self /\
  model_name self' = model_name self /\
  device self' = device self /\
  encode_kwargs self' = encode_kwargs self /\
  qdrant_url self' = qdrant_url self /\
  qdrant_api_key self' = qdrant_api_key self /\
  collection_name self' = collection_name self /\
  embeddings self' = embeddings self.
Proof.
  intros self'.
  assert (Hsame : self' = self).
  { unfold self'. rewrite create_embeddings_stages. cbv zeta.
    destruct (fs w !! path); [|reflexivity].
    destruct (loader_result (fs w) path) as [e|[|d ds]]; try reflexivity.
    destruct (splitter_result 1000 250 (d :: ds)); [reflexivity|].
    destruct (from_documents _ _ _ _ _ _ _ _) as [[e|u] w4]; [|reflexivity].
    destruct (is_Exception e); reflexivity. }
  rewrite Hsame. repeat split; reflexivity.
Qed.

(** C10.  Every successful call returns the same string,
    "✅ Vector DB Successfully Created and Stored in Qdrant Cloud!",
    whatever the path, the chunks and the collection. *)
Theorem success_message_constant self w path msg st' :
  call (create_embeddings path) self w = (Returned msg, st') ->
  msg = "✅ Vector DB Successfully Created and Stored in Qdrant Cloud!".
Proof.
  rewrite create_embeddings_stages. cbv zeta.
  destruct (fs w !! path); [|discriminate].
  destruct (loader_result (fs w) path) as [e|[|d ds]]; try discriminate.
  destruct (splitter_result 1000 250 (d :: ds)); [discriminate|].
  destruct (from_documents _ _ _ _ _ _ _ _) as [[e|u] w4].
  - destruct (is_Exception e); discriminate.
  - intros [= <- _]. reflexivity.
Qed.

End Pipeline.

(** ** The pipeline in the sample environment *)

Lemma sample_embeds_all (chunks : list Chunk) :
  Forall2 (embeds_to (libs := Sample.store_down) default_embeddings) chunks
          (map (fun c => Sample.vector_of (chunk_text c)) chunks).
Proof.
  induction chunks as [|c rest IH]; constructor; [reflexivity | exact IH].
Qed.

(** The collection [papers] held a stale point; after ingesting the report it
    holds the four chunks of the report and nothing else. *)
Example ingest_drops_stale_point :
  store Sample.world0 !! Some "papers" = Some [Sample.old_point] /\
  store (world (snd (call (create_embeddings (libs := Sample.working)
                             "/data/report.pdf")
                          Sample.manager Sample.world0)))
    !! Some "papers"
  = Some (map (fun c => (c, Sample.vector_of (chunk_text c)))
              (ChunkSplitter.split_document 1000 250 Sample.report)).
Proof. split; vm_compute; reflexivity. Qed.

Lemma ingest_replaces_collection_witness :
  call (create_embeddings (libs := Sample.working) "/data/report.pdf")
       Sample.manager Sample.world0
  = (Returned SUCCESS_MESSAGE,
     snd (call (create_embeddings (libs := Sample.working) "/data/report.pdf")
               Sample.manager Sample.world0)) /\
  exists docs vectors,
    store (world (snd (call (create_embeddings (libs := Sample.working)
                               "/data/report.pdf")
                            Sample.manager Sample.world0)))
      !! Some "papers"
    = Some (zip (ChunkSplitter.split_documents 1000 250 docs) vectors).
Proof.
  assert (Hrun :
    call (create_embeddings (libs := Sample.working) "/data/report.pdf")
         Sample.manager Sample.world0
    = (Returned SUCCESS_MESSAGE,
       snd (call (create_embeddings (libs := Sample.working) "/data/report.pdf")
                 Sample.manager Sample.world0))).
  { vm_compute. reflexivity. }
  split; [exact Hrun|].
  destruct (ingest_replaces_collection (libs := Sample.working) _ _ _ _ _ Hrun)
    as (docs & vectors & _ & _ & Hstore & _).
  exists docs, vectors. exact Hstore.
Defined.

Lemma missing_path_fails_first_witness :
  fs Sample.world0 !! "/data/missing.pdf" = None /\
  call (create_embeddings (libs := Sample.working) "/data/missing.pdf")
       Sample.manager Sample.world0
  = (Raised (Exc FileNotFoundError
               "The file /data/missing.pdf does not exist." None),
     mkState Sample.manager
       (mkWorld Sample.files (store Sample.world0)
                [EvPathExists "/data/missing.pdf"])).
Proof.
  split.
  - vm_compute. reflexivity.
  - apply (missing_path_fails_first (libs := Sample.working)).
    vm_compute. reflexivity.
Defined.

Lemma empty_load_fails_witness :
  is_Some (fs Sample.world0 !! "/data/scan.pdf") /\
  loader_result (Collaborators := Sample.working) (fs Sample.world0)
    "/data/scan.pdf" = Returned [] /\
  fst (call (create_embeddings (libs := Sample.working) "/data/scan.pdf")
            Sample.manager Sample.world0)
  = Raised (Exc ValueError "No documents were loaded from the PDF." None).
Proof.
  assert (Hfile : is_Some (fs Sample.world0 !! "/data/scan.pdf")).
  { exists (RegularFile true). vm_compute. reflexivity. }
  assert (Hload : loader_result (Collaborators := Sample.working)
                    (fs Sample.world0) "/data/scan.pdf" = Returned []).
  { vm_compute. reflexivity. }
  split; [exact Hfile|]. split; [exact Hload|].
  rewrite (empty_load_fails (libs := Sample.working) _ _ _ Hfile Hload).
  reflexivity.
Defined.

Lemma empty_split_fails_witness :
  is_Some (fs Sample.world0 !! "/data/blank.pdf") /\
  loader_result (Collaborators := Sample.working) (fs Sample.world0)
    "/data/blank.pdf" = Returned [Sample.blank] /\
  [Sample.blank] <> [] /\
  splitter_result (Collaborators := Sample.working) 1000 250 [Sample.blank] = [] /\
  fst (call (create_embeddings (libs := Sample.working) "/data/blank.pdf")
            Sample.manager Sample.world0)
  = Raised (Exc ValueError
              "No text chunks were created from the documents." None).
Proof.
  assert (Hfile : is_Some (fs Sample.world0 !! "/data/blank.pdf")).
  { exists (RegularFile true). vm_compute. reflexivity. }
  assert (Hload : loader_result (Collaborators := Sample.working)
                    (fs Sample.world0) "/data/blank.pdf"
                  = Returned [Sample.blank]).
  { vm_compute. reflexivity. }
  assert (Hdocs : [Sample.blank] <> []) by discriminate.
  assert (Hsplit : splitter_result (Collaborators := Sample.working)
                     1000 250 [Sample.blank] = []).
  { vm_compute. reflexivity. }
  split; [exact Hfile|]. split; [exact Hload|].
  split; [exact Hdocs|]. split; [exact Hsplit|].
  rewrite (empty_split_fails (libs := Sample.working)
             _ _ _ _ Hfile Hload Hdocs Hsplit).
  reflexivity.
Defined.

Lemma store_failure_wrapped_witness :
  is_Some (fs Sample.world0 !! "/data/report.pdf") /\
  store_failure (Collaborators := Sample.store_down)
    (qdrant_url Sample.manager) (qdrant_api_key Sample.manager)
    (collection_name Sample.manager) = Some Sample.timeout /\
  is_Exception Sample.timeout = true /\
  exists st',
    call (create_embeddings (libs := Sample.store_down) "/data/report.pdf")
         Sample.manager Sample.world0
    = (Raised (Exc ConnectionError
                 "Failed to connect to Qdrant Cloud: timed out"
                 (Some Sample.timeout)),
       st') /\
    store (world st') = store Sample.world0.
Proof.
  assert (Hfile : is_Some (fs Sample.world0 !! "/data/report.pdf")).
  { exists (RegularFile true). vm_compute. reflexivity. }
  split; [exact Hfile|]. split; [reflexivity|]. split; [reflexivity|].
  apply (store_failure_wrapped (libs := Sample.store_down)
           Sample.manager Sample.world0 "/data/report.pdf" [Sample.report]
           (map (fun c => Sample.vector_of (chunk_text c))
                (ChunkSplitter.split_documents 1000 250 [Sample.report]))
           Sample.timeout).
  - exact Hfile.
  - vm_compute. reflexivity.
  - discriminate.
  - vm_compute. discriminate.
  - apply sample_embeds_all.
  - reflexivity.
  - reflexivity.
Defined.

Lemma provider_failure_wrapped_witness :
  embed_result (Collaborators := Sample.provider_flaky) default_embeddings
    (String.substring 1500 1000 (page_content Sample.report))
  = Raised Sample.embedding_error /\
  is_Exception Sample.embedding_error = true /\
  fst (call (create_embeddings (libs := Sample.provider_flaky) "/data/report.pdf")
            Sample.manager Sample.world0)
  = Raised (Exc ConnectionError
              "Failed to connect to Qdrant Cloud: model crashed"
              (Some Sample.embedding_error)).
Proof.
  split; [vm_compute; reflexivity|]. split; [reflexivity|].
  rewrite (provider_failure_wrapped (libs := Sample.provider_flaky)
             Sample.manager Sample.world0 "/data/report.pdf" [Sample.report]
             (firstn 2 (ChunkSplitter.split_documents 1000 250 [Sample.report]))
             (mkChunk (String.substring 1500 1000 (page_content Sample.report))
                      (metadata Sample.report) 1500)
             (skipn 3 (ChunkSplitter.split_documents 1000 250 [Sample.report]))
             (map (fun c => Sample.vector_of (chunk_text c))
                  (firstn 2 (ChunkSplitter.split_documents 1000 250
                               [Sample.report])))
             Sample.embedding_error).
  - reflexivity.
  - exists (RegularFile true). vm_compute. reflexivity.
  - vm_compute. reflexivity.
  - discriminate.
  - vm_compute. reflexivity.
  - vm_compute. repeat constructor.
  - vm_compute. reflexivity.
  - reflexivity.
Defined.

Lemma absent_configuration_stored_witness :
  Globals.qdrant_url ∅ = None /\
  new_default (libs := Sample.working) ∅ Sample.world0
  = (Returned
       (mkManager "BAAI/bge-small-en" "cpu" {[ "normalize_embeddings" := true ]}
                  None None None default_embeddings),
     emit (EvLoadModel default_embeddings) Sample.world0).
Proof.
  split; [reflexivity|].
  rewrite (absent_configuration_stored (libs := Sample.working) ∅ Sample.world0).
  - reflexivity.
  - left. reflexivity.
Defined.

Lemma success_message_constant_witness :
  call (create_embeddings (libs := Sample.working) "/data/report.pdf")
       Sample.manager Sample.world0
  = (Returned SUCCESS_MESSAGE,
     snd (call (create_embeddings (libs := Sample.working) "/data/report.pdf")
               Sample.manager Sample.world0)) /\
  SUCCESS_MESSAGE
  = "✅ Vector DB Successfully Created and Stored in Qdrant Cloud!".
Proof.
  assert (Hrun :
    call (create_embeddings (libs := Sample.working) "/data/report.pdf")
         Sample.manager Sample.world0
    = (Returned SUCCESS_MESSAGE,
       snd (call (create_embeddings (libs := Sample.working) "/data/report.pdf")
                 Sample.manager Sample.world0))).
  { vm_compute. reflexivity. }
  split; [exact Hrun|].
  exact (success_message_constant (libs := Sample.working) _ _ _ _ _ Hrun).
Defined.

(** ** Where the code departs from the specification *)

(** C3, counterexample.  [/data] is a directory: not a readable file, yet it
    exists, so the existence test passes, the loader is called, and the
    exception that ends the call is the loader's, not [FileNotFoundError]. *)
Lemma existing_directory_reaches_loader :
  ~ readable_file Sample.world0 "/data" /\
  exists e st',
    call (create_embeddings (libs := Sample.working) "/data")
         Sample.manager Sample.world0 = (Raised e, st') /\
    exc_cls e <> FileNotFoundError /\
    trace (world st') = [EvPathExists "/data"; EvLoaderLoad "/data"].
Proof.
  split.
  - unfold readable_file. vm_compute. discriminate.
  - eexists. eexists. split; [vm_compute; reflexivity|].
    split; [discriminate | reflexivity].
Qed.

(** C7, counterexample.  The provider raises its own error on the first
    chunk; what reaches the caller is a [ConnectionError], the class used for
    store failures, and not the provider's error. *)
Lemma provider_failure_not_propagated :
  embed_result (Collaborators := Sample.provider_down) default_embeddings
    (String.substring 0 1000 (page_content Sample.report))
  = Raised Sample.embedding_error /\
  exists e st',
    call (create_embeddings (libs := Sample.provider_down) "/data/report.pdf")
         Sample.manager Sample.world0 = (Raised e, st') /\
    e <> Sample.embedding_error /\
    exc_cls e = ConnectionError /\
    exc_context e = Some Sample.embedding_error.
Proof.
  split; [reflexivity|].
  eexists. eexists. split; [vm_compute; reflexivity|].
  split; [discriminate|]. split; reflexivity.
Qed.

(** C8, counterexample.  With none of the three variables set, construction
    raises nothing: it loads the embedding model and returns an object whose
    three store settings are [None]. *)
Lemma absent_configuration_accepted :
  Globals.qdrant_url ∅ = None /\
  Globals.qdrant_api_key ∅ = None /\
  Globals.collection_name ∅ = None /\
  exists obj w',
    new_default (libs := Sample.working) ∅ Sample.world0 = (Returned obj, w') /\
    qdrant_url obj = None /\
    qdrant_api_key obj = None /\
    collection_name obj = None /\
    trace w' = [EvLoadModel default_embeddings].
Proof.
  split; [reflexivity|]. split; [reflexivity|]. split; [reflexivity|].
  eexists. eexists. split; [vm_compute; reflexivity|].
  repeat split; reflexivity.
Qed.


(** * More about runs *)

Section Runs.

Context {libs : Collaborators}.

Lemma embed_all_calls model chunks : forall w,
  exists evs,
    trace (snd (embed_all model chunks w)) = trace w ++ evs /\
    Forall (fun ev => exists text, ev = EvEmbed model text) evs.
Proof.
  induction chunks as [|c rest IH]; intros w.
  - exists []. simpl. rewrite app_nil_r. split; [reflexivity | constructor].
  - simpl. unfold bind, embed at 1.
    destruct (embed_result model (chunk_text c)) as [e|v].
    + exists [EvEmbed model (chunk_text c)]. split; [reflexivity|].
      repeat constructor. eexists. reflexivity.
    + destruct (IH (emit (EvEmbed model (chunk_text c)) w)) as (evs & Hevs & Hall).
      exists (EvEmbed model (chunk_text c) :: evs). split.
      * destruct (embed_all model rest _) as [[e|vs] w1];
          simpl in *; rewrite Hevs, <- app_assoc; reflexivity.
      * constructor; [eexists; reflexivity | exact Hall].
Qed.

Lemma from_documents_calls splits model url grpc key coll w :
  exists net,
    trace (snd (from_documents splits model url grpc key coll true w))
    = trace w ++ net /\
    Forall (fun ev => is_network_call ev = true /\
                      addressed_to model url key coll ev) net.
Proof.
  unfold from_documents, bind.
  destruct (embed_all_calls model splits w) as (evs & Hevs & Hall).
  assert (Hnet : Forall (fun ev => is_network_call ev = true /\
                                   addressed_to model url key coll ev) evs).
  { eapply Forall_impl; [exact Hall|]. intros ev [text ->]. split; reflexivity. }
  destruct (embed_all model splits w) as [[e|vectors] w1].
  - exists evs. split; [exact Hevs | exact Hnet].
  - unfold store_upsert. simpl in Hevs.
    exists (evs ++ [EvUpsert url key coll true (length (zip splits vectors))]).
    split.
    + destruct (store_failure url key coll); simpl;
        rewrite Hevs, <- app_assoc; reflexivity.
    + apply Forall_app. split; [exact Hnet|].
      repeat constructor.
Qed.

(** Every run is one of five: stopped at the existence test, at a loader
    that raised, at an empty load, at an empty split, or gone on to the
    provider and the store. *)
Lemma run_cases self w path :
  let evs := calls_made (create_embeddings path) self w in
  (fs w !! path = None /\ evs = [EvPathExists path]) \/
  (is_Some (fs w !! path) /\
   (exists e, loader_result (fs w) path = Raised e) /\
   evs = [EvPathExists path; EvLoaderLoad path]) \/
  (is_Some (fs w !! path) /\
   loader_result (fs w) path = Returned [] /\
   evs = [EvPathExists path; EvLoaderLoad path]) \/
  (is_Some (fs w !! path) /\
   exists docs,
     loader_result (fs w) path = Returned docs /\ docs <> [] /\
     splitter_result 1000 250 docs = [] /\
     evs = [EvPathExists path; EvLoaderLoad path;
            EvSplit 1000 250 (length docs)]) \/
  (is_Some (fs w !! path) /\
   exists docs net,
     loader_result (fs w) path = Returned docs /\ docs <> [] /\
     splitter_result 1000 250 docs <> [] /\
     evs = EvPathExists path :: EvLoaderLoad path
             :: EvSplit 1000 250 (length docs) :: net /\
     Forall (fun ev => is_network_call ev = true /\
                       addressed_to (embeddings self) (qdrant_url self)
                         (qdrant_api_key self) (collection_name self) ev) net).
Proof.
  intros evs. unfold evs, calls_made.
  rewrite create_embeddings_stages. cbv zeta.
  destruct (fs w !! path) as [entry|] eqn:Hentry.
  2:{ left. split; [reflexivity|]. simpl. apply drop_app_length. }
  right.
  destruct (loader_result (fs w) path) as [e|[|d ds]] eqn:Hload.
  { left. split; [eauto|]. split; [eauto|].
    simpl. rewrite <- app_assoc. apply drop_app_length. }
  { right. left. split; [eauto|]. split; [reflexivity|].
    simpl. rewrite <- app_assoc. apply drop_app_length. }
  right. right.
  destruct (splitter_result 1000 250 (d :: ds)) as [|c cs] eqn:Hsplit.
  { left. split; [eauto|]. exists (d :: ds).
    split; [reflexivity|]. split; [discriminate|]. split; [exact Hsplit|].
    simpl. rewrite <- !app_assoc. apply drop_app_length. }
  right. split; [eauto|].
  match goal with
  | |- context [from_documents ?a ?b ?c ?d ?e ?f true ?h] =>
      destruct (from_documents_calls a b c d e f h) as (net & Hnet & Hall);
      destruct (from_documents a b c d e f true h) as [[e0|u] w4]
  end.
  - exists (d :: ds), net. split; [reflexivity|]. split; [discriminate|].
    split; [rewrite Hsplit; discriminate|]. split; [|exact Hall].
    simpl in Hnet.
    destruct (is_Exception e0); simpl; rewrite Hnet, <- !app_assoc;
      apply drop_app_length.
  - exists (d :: ds), net. split; [reflexivity|]. split; [discriminate|].
    split; [rewrite Hsplit; discriminate|]. split; [|exact Hall].
    simpl in Hnet. simpl. rewrite Hnet, <- !app_assoc. apply drop_app_length.
Qed.

(** A provider that answers every text embeds every batch. *)
Lemma embeds_all_total model (f : string -> EmbeddingVector) chunks :
  (forall text, embed_result model text = Returned (f text)) ->
  Forall2 (embeds_to model) chunks (map (fun c => f (chunk_text c)) chunks).
Proof.
  intros Hf. induction chunks as [|c rest IH]; constructor; [apply Hf | exact IH].
Qed.

(** X1.  An exception raised by the loader is not caught and not wrapped: it
    reaches the caller as it is, whatever its class, and the run ends there,
    after the existence test and the loader call. *)
Theorem loader_failure_propagates self w path e :
  is_Some (fs w !! path) ->
  loader_result (fs w) path = Raised e ->
  call (create_embeddings path) self w
  = (Raised e,
     mkState self (emit (EvLoaderLoad path) (emit (EvPathExists path) w))).
Proof.
  intros [entry Hentry] Hload.
  rewrite create_embeddings_stages, Hentry, Hload. reflexivity.
Qed.

(** X3.  The exceptions a caller can see: the loader's own exception, an
    exception that is not an [Exception] (it passed through the handler), or
    one of [FileNotFoundError], [ValueError], [ConnectionError]. *)
Theorem raised_classes_exhaustive self w path e st' :
  call (create_embeddings path) self w = (Raised e, st') ->
  (is_Some (fs w !! path) /\ loader_result (fs w) path = Raised e) \/
  is_Exception e = false \/
  exc_cls e = FileNotFoundError \/
  exc_cls e = ValueError \/
  exc_cls e = ConnectionError.
Proof.
  rewrite create_embeddings_stages. cbv zeta.
  destruct (fs w !! path) as [entry|] eqn:Hentry.
  2:{ intros [= <- _]. auto. }
  destruct (loader_result (fs w) path) as [e0|[|d ds]].
  { intros [= <- _]. left. eauto. }
  { intros [= <- _]. auto. }
  destruct (splitter_result 1000 250 (d :: ds)) as [|c cs].
  { intros [= <- _]. auto. }
  destruct (from_documents _ _ _ _ _ _ _ _) as [[e0|u] w4]; [|discriminate].
  destruct (is_Exception e0) eqn:Hexc; intros [= <- _]; auto 6.
Qed.

(** X4.  The embedding provider and the store are contacted only when the
    path exists, the loader returned at least one document and the splitter
    returned at least one chunk. *)
Theorem network_calls_need_chunks self w path :
  existsb is_network_call (calls_made (create_embeddings path) self w) = true ->
  is_Some (fs w !! path) /\
  exists docs,
    loader_result (fs w) path = Returned docs /\ docs <> [] /\
    splitter_result 1000 250 docs <> [].
Proof.
  destruct (run_cases self w path)
    as [(_ & ->) | [(_ & _ & ->) | [(_ & _ & ->)
       | [(_ & docs & _ & _ & _ & ->) | (Hfile & docs & net & Hload & Hdocs & Hsplit & _)]]]];
    try discriminate.
  intros _. split; [exact Hfile|]. exists docs. auto.
Qed.

(** X5.  The calls of a run come in a fixed order, each of the first three
    at most once: the existence test, then the loader on the same path, then
    the splitter with chunk size 1000 and overlap 250 on all loaded
    documents; whatever follows is a call to the provider or to the store.
    The embedding model is never loaded again. *)
Theorem calls_in_stage_order self w path :
  let evs := calls_made (create_embeddings path) self w in
  evs = [EvPathExists path] \/
  evs = [EvPathExists path; EvLoaderLoad path] \/
  exists docs net,
    loader_result (fs w) path = Returned docs /\
    evs = EvPathExists path :: EvLoaderLoad path
            :: EvSplit 1000 250 (length docs) :: net /\
    Forall (fun ev => is_network_call ev = true) net.
Proof.
  intros evs. unfold evs.
  destruct (run_cases self w path)
    as [(_ & ->) | [(_ & _ & ->) | [(_ & _ & ->)
       | [(_ & docs & Hload & _ & _ & ->)
         | (_ & docs & net & Hload & _ & _ & -> & Hall)]]]]; auto.
  - right. right. exists docs, []. auto.
  - right. right. exists docs, net. split; [exact Hload|]. split; [reflexivity|].
    eapply Forall_impl; [exact Hall|]. intros ev [Hev _]. exact Hev.
Qed.

(** X6.  Every provider call of a run is made on [self.embeddings], and
    every store request goes to [self.qdrant_url] with [self.qdrant_api_key]
    for [self.collection_name] and asks for the collection to be recreated:
    no run appends to a collection or writes to another one. *)
Theorem calls_use_receiver_settings self w path :
  Forall (addressed_to (embeddings self) (qdrant_url self)
            (qdrant_api_key self) (collection_name self))
         (calls_made (create_embeddings path) self w).
Proof.
  destruct (run_cases self w path)
    as [(_ & ->) | [(_ & _ & ->) | [(_ & _ & ->)
       | [(_ & docs & _ & _ & _ & ->)
         | (_ & docs & net & _ & _ & _ & -> & Hall)]]]];
    repeat (constructor; [exact I|]); try constructor.
  eapply Forall_impl; [exact Hall|]. intros ev [_ Hev]. exact Hev.
Qed.

(** X7.  A manager built by the constructor ingests with what the
    constructor was given: in every later run, provider calls are made on
    the model built from the [model_name], [device] and [encode_kwargs]
    arguments, and store requests go to the [qdrant_url], [qdrant_api_key]
    and [collection_name] arguments. *)
Theorem constructed_manager_keeps_settings
    mn dev ek (url key coll : option string) w0 obj w1 path w :
  __init__ mn dev ek url key coll w0 = (Returned obj, w1) ->
  Forall (addressed_to (mkEmbeddings mn {[ "device" := dev ]} ek) url key coll)
         (calls_made (create_embeddings path) obj w).
Proof.
  unfold __init__, bind, new_embeddings, ret.
  destruct (model_failure _); [discriminate|]. intros [= <- _].
  destruct (run_cases
              (mkManager mn dev ek url key coll
                 (mkEmbeddings mn {[ "device" := dev ]} ek)) w path)
    as [(_ & ->) | [(_ & _ & ->) | [(_ & _ & ->)
       | [(_ & docs & _ & _ & _ & ->)
         | (_ & docs & net & _ & _ & _ & -> & Hall)]]]];
    repeat (constructor; [exact I|]); try constructor.
  eapply Forall_impl; [exact Hall|]. intros ev [_ Hev]. exact Hev.
Qed.

(** X8.  When the path exists, the loader returns documents, the splitter
    returns chunks, the provider answers for every chunk and the store
    request does not fail, the call returns the success message; on the way
    it has tested the path, loaded, split, embedded the chunks in order and
    sent one request to the store, which then holds the batch under
    [self.collection_name]. *)
Theorem ingest_succeeds self w path docs vectors :
  is_Some (fs w !! path) ->
  loader_result (fs w) path = Returned docs ->
  docs <> [] ->
  splitter_result 1000 250 docs <> [] ->
  Forall2 (embeds_to (embeddings self)) (splitter_result 1000 250 docs) vectors ->
  store_failure (qdrant_url self) (qdrant_api_key self) (collection_name self)
  = None ->
  call (create_embeddings path) self w
  = (Returned SUCCESS_MESSAGE,
     mkState self
       (mkWorld (fs w)
          (<[collection_name self := zip (splitter_result 1000 250 docs) vectors]>
             (store w))
          (trace w
             ++ [EvPathExists path; EvLoaderLoad path;
                 EvSplit 1000 250 (length docs)]
             ++ embed_events (embeddings self) (splitter_result 1000 250 docs)
             ++ [EvUpsert (qdrant_url self) (qdrant_api_key self)
                   (collection_name self) true
                   (length (splitter_result 1000 250 docs))]))).
Proof.
  intros [entry Hentry] Hload Hdocs Hsplit Hall Hstore.
  rewrite create_embeddings_stages, Hentry, Hload.
  destruct docs as [|d ds]; [congruence|]. cbv zeta.
  destruct (splitter_result 1000 250 (d :: ds)) as [|c cs] eqn:Hcs;
    [congruence|].
  rewrite (from_documents_stored _ _ _ _ _ _ _ _ _ Hall Hstore).
  unfold emit, VectorStore.upsert. cbn [fs store trace].
  rewrite length_zip. apply Forall2_length in Hall. rewrite <- Hall.
  rewrite Nat.min_id, <- !app_assoc. reflexivity.
Qed.

(** X10.  The call returns exactly when every stage goes through: the path
    exists, the loader returns at least one document, the splitter returns
    at least one chunk, the provider answers for every chunk and the store
    request does not fail. *)
Theorem ingest_returns_iff self w path :
  (exists msg st', call (create_embeddings path) self w = (Returned msg, st'))
  <->
  (is_Some (fs w !! path) /\
   exists docs vectors,
     loader_result (fs w) path = Returned docs /\
     docs <> [] /\
     splitter_result 1000 250 docs <> [] /\
     Forall2 (embeds_to (embeddings self)) (splitter_result 1000 250 docs)
             vectors /\
     store_failure (qdrant_url self) (qdrant_api_key self)
                   (collection_name self) = None).
Proof.
  rewrite create_embeddings_stages. cbv zeta. split.
  - intros (msg & st' & Hrun).
    destruct (fs w !! path) as [entry|] eqn:Hentry; [|discriminate].
    split; [eauto|].
    destruct (loader_result (fs w) path) as [e|[|d ds]]; try discriminate.
    destruct (splitter_result 1000 250 (d :: ds)) as [|c cs] eqn:Hsplit;
      [discriminate|].
    destruct (from_documents _ _ _ _ _ _ _ _) as [[e|u] w4] eqn:Hdocs.
    { destruct (is_Exception e); discriminate. }
    apply from_documents_returned in Hdocs as (vectors & Hall & Hstore & _).
    exists (d :: ds), vectors. rewrite Hsplit.
    split; [reflexivity|]. split; [discriminate|]. split; [discriminate|].
    split; [exact Hall | exact Hstore].
  - intros ([entry Hentry] & docs & vectors & Hload & Hdocs & Hsplit & Hall & Hstore).
    rewrite Hentry, Hload.
    destruct docs as [|d ds]; [congruence|].
    destruct (splitter_result 1000 250 (d :: ds)) as [|c cs] eqn:Hcs;
      [congruence|].
    rewrite (from_documents_stored _ _ _ _ _ _ _ _ _ Hall Hstore).
    eauto.
Qed.

(** X11.  A manager built with the default arguments sends its store
    requests to the [QDRANT_URL], with the [QDRANT_API_KEY], for the
    [COLLECTION_NAME] that the environment held when the module was loaded,
    and embeds with BAAI/bge-small-en on the cpu with normalised vectors. *)
Theorem default_manager_uses_environment environ w0 obj w1 path w :
  new_default environ w0 = (Returned obj, w1) ->
  Forall (addressed_to default_embeddings (environ !! "QDRANT_URL")
            (environ !! "QDRANT_API_KEY") (environ !! "COLLECTION_NAME"))
         (calls_made (create_embeddings path) obj w).
Proof.
  unfold new_default, __init__, bind, new_embeddings, ret.
  fold default_embeddings.
  destruct (model_failure default_embeddings); [discriminate|].
  intros [= <- _].
  match goal with
  | |- Forall _ (calls_made _ ?o _) =>
      destruct (run_cases o w path)
        as [(_ & ->) | [(_ & _ & ->) | [(_ & _ & ->)
           | [(_ & docs & _ & _ & _ & ->)
             | (_ & docs & net & _ & _ & _ & -> & Hall)]]]]
  end;
    repeat (constructor; [exact I|]); try constructor.
  eapply Forall_impl; [exact Hall|]. intros ev [_ Hev]. exact Hev.
Qed.

End Runs.

(** ** Runs in the sample environment *)

Lemma loader_failure_propagates_witness :
  is_Some (fs Sample.world0 !! "/data/locked.pdf") /\
  loader_result (Collaborators := Sample.working) (fs Sample.world0)
    "/data/locked.pdf"
  = Raised (Exc (LibraryError "PermissionError") "/data/locked.pdf" None) /\
  fst (call (create_embeddings (libs := Sample.working) "/data/locked.pdf")
            Sample.manager Sample.world0)
  = Raised (Exc (LibraryError "PermissionError") "/data/locked.pdf" None).
Proof.
  assert (Hfile : is_Some (fs Sample.world0 !! "/data/locked.pdf")).
  { exists (RegularFile false). vm_compute. reflexivity. }
  assert (Hload : loader_result (Collaborators := Sample.working)
                    (fs Sample.world0) "/data/locked.pdf"
                  = Raised (Exc (LibraryError "PermissionError")
                              "/data/locked.pdf" None)).
  { vm_compute. reflexivity. }
  split; [exact Hfile|]. split; [exact Hload|].
  rewrite (loader_failure_propagates (libs := Sample.working) _ _ _ _ Hfile Hload).
  reflexivity.
Defined.

Lemma existing_path_reaches_loader_witness :
  is_Some (fs Sample.world0 !! "/data/locked.pdf") /\
  exists evs,
    trace (world (snd (call (create_embeddings (libs := Sample.working)
                               "/data/locked.pdf")
                            Sample.manager Sample.world0)))
    = trace Sample.world0
        ++ EvPathExists "/data/locked.pdf" :: EvLoaderLoad "/data/locked.pdf"
        :: evs.
Proof.
  assert (Hfile : is_Some (fs Sample.world0 !! "/data/locked.pdf")).
  { exists (RegularFile false). vm_compute. reflexivity. }
  split; [exact Hfile|].
  exact (existing_path_reaches_loader (libs := Sample.working)
           Sample.manager Sample.world0 "/data/locked.pdf" Hfile).
Defined.

Lemma raised_classes_exhaustive_witness :
  call (create_embeddings (libs := Sample.store_down) "/data/report.pdf")
       Sample.manager Sample.world0
  = (Raised (Exc ConnectionError "Failed to connect to Qdrant Cloud: timed out"
               (Some Sample.timeout)),
     snd (call (create_embeddings (libs := Sample.store_down) "/data/report.pdf")
               Sample.manager Sample.world0)) /\
  ((is_Some (fs Sample.world0 !! "/data/report.pdf") /\
    loader_result (Collaborators := Sample.store_down) (fs Sample.world0)
      "/data/report.pdf"
    = Raised (Exc ConnectionError "Failed to connect to Qdrant Cloud: timed out"
                (Some Sample.timeout))) \/
   is_Exception (Exc ConnectionError "Failed to connect to Qdrant Cloud: timed out"
                   (Some Sample.timeout)) = false \/
   exc_cls (Exc ConnectionError "Failed to connect to Qdrant Cloud: timed out"
              (Some Sample.timeout)) = FileNotFoundError \/
   exc_cls (Exc ConnectionError "Failed to connect to Qdrant Cloud: timed out"
              (Some Sample.timeout)) = ValueError \/
   exc_cls (Exc ConnectionError "Failed to connect to Qdrant Cloud: timed out"
              (Some Sample.timeout)) = ConnectionError).
Proof.
  assert (Hrun :
    call (create_embeddings (libs := Sample.store_down) "/data/report.pdf")
         Sample.manager Sample.world0
    = (Raised (Exc ConnectionError "Failed to connect to Qdrant Cloud: timed out"
                 (Some Sample.timeout)),
       snd (call (create_embeddings (libs := Sample.store_down) "/data/report.pdf")
                 Sample.manager Sample.world0))).
  { vm_compute. reflexivity. }
  split; [exact Hrun|].
  exact (raised_classes_exhaustive (libs := Sample.store_down) _ _ _ _ _ Hrun).
Defined.

Lemma network_calls_need_chunks_witness :
  existsb is_network_call
    (calls_made (create_embeddings (libs := Sample.working) "/data/report.pdf")
                Sample.manager Sample.world0) = true /\
  is_Some (fs Sample.world0 !! "/data/report.pdf").
Proof.
  assert (Hnet :
    existsb is_network_call
      (calls_made (create_embeddings (libs := Sample.working) "/data/report.pdf")
                  Sample.manager Sample.world0) = true).
  { vm_compute. reflexivity. }
  split; [exact Hnet|].
  apply (network_calls_need_chunks (libs := Sample.working) _ _ _ Hnet).
Defined.

Lemma constructed_manager_keeps_settings_witness :
  __init__ (libs := Sample.working) "BAAI/bge-small-en" "cpu"
    {[ "normalize_embeddings" := true ]}
    (Some "https://qdrant.example") (Some "key") (Some "papers") Sample.world0
  = (Returned Sample.manager, emit (EvLoadModel default_embeddings) Sample.world0) /\
  Forall (addressed_to default_embeddings (Some "https://qdrant.example")
            (Some "key") (Some "papers"))
         (calls_made (create_embeddings (libs := Sample.working) "/data/report.pdf")
                     Sample.manager Sample.world0).
Proof.
  assert (Hnew :
    __init__ (libs := Sample.working) "BAAI/bge-small-en" "cpu"
      {[ "normalize_embeddings" := true ]}
      (Some "https://qdrant.example") (Some "key") (Some "papers") Sample.world0
    = (Returned Sample.manager,
       emit (EvLoadModel default_embeddings) Sample.world0)).
  { reflexivity. }
  split; [exact Hnew|].
  exact (constructed_manager_keeps_settings (libs := Sample.working)
           _ _ _ _ _ _ _ _ _ "/data/report.pdf" Sample.world0 Hnew).
Defined.

Lemma ingest_succeeds_witness :
  is_Some (fs Sample.world0 !! "/data/report.pdf") /\
  store_failure (Collaborators := Sample.working)
    (qdrant_url Sample.manager) (qdrant_api_key Sample.manager)
    (collection_name Sample.manager) = None /\
  fst (call (create_embeddings (libs := Sample.working) "/data/report.pdf")
            Sample.manager Sample.world0)
  = Returned SUCCESS_MESSAGE.
Proof.
  assert (Hfile : is_Some (fs Sample.world0 !! "/data/report.pdf")).
  { exists (RegularFile true). vm_compute. reflexivity. }
  split; [exact Hfile|]. split; [reflexivity|].
  rewrite (ingest_succeeds (libs := Sample.working)
             Sample.manager Sample.world0 "/data/report.pdf" [Sample.report]
             (map (fun c => Sample.vector_of (chunk_text c))
                  (ChunkSplitter.split_documents 1000 250 [Sample.report]))).
  - reflexivity.
  - exact Hfile.
  - vm_compute. reflexivity.
  - discriminate.
  - vm_compute. discriminate.
  - apply (embeds_all_total (libs := Sample.working)). reflexivity.
  - reflexivity.
Defined.

Lemma exit_request_passes_through_witness :
  is_Some (fs Sample.world0 !! "/data/report.pdf") /\
  store_failure (Collaborators := Sample.interrupted)
    (qdrant_url Sample.manager) (qdrant_api_key Sample.manager)
    (collection_name Sample.manager) = Some Sample.interrupt /\
  is_Exception Sample.interrupt = false /\
  fst (call (create_embeddings (libs := Sample.interrupted) "/data/report.pdf")
            Sample.manager Sample.world0)
  = Raised Sample.interrupt.
Proof.
  assert (Hfile : is_Some (fs Sample.world0 !! "/data/report.pdf")).
  { exists (RegularFile true). vm_compute. reflexivity. }
  split; [exact Hfile|]. split; [reflexivity|]. split; [reflexivity|].
  apply (exit_request_passes_through (libs := Sample.interrupted)
           Sample.manager Sample.world0 "/data/report.pdf" [Sample.report]
           (map (fun c => Sample.vector_of (chunk_text c))
                (ChunkSplitter.split_documents 1000 250 [Sample.report]))
           Sample.interrupt).
  - exact Hfile.
  - vm_compute. reflexivity.
  - discriminate.
  - vm_compute. discriminate.
  - apply (embeds_all_total (libs := Sample.interrupted)). reflexivity.
  - reflexivity.
  - reflexivity.
Defined.

Lemma default_manager_uses_environment_witness :
  new_default (libs := Sample.working) Sample.environ Sample.world0
  = (Returned Sample.manager, emit (EvLoadModel default_embeddings) Sample.world0) /\
  Forall (addressed_to default_embeddings (Some "https://qdrant.example")
            (Some "key") (Some "papers"))
         (calls_made (create_embeddings (libs := Sample.working) "/data/report.pdf")
                     Sample.manager Sample.world0).
Proof.
  assert (Hnew :
    new_default (libs := Sample.working) Sample.environ Sample.world0
    = (Returned Sample.manager,
       emit (EvLoadModel default_embeddings) Sample.world0)).
  { vm_compute. reflexivity. }
  split; [exact Hnew|].
  exact (default_manager_uses_environment (libs := Sample.working)
           Sample.environ _ _ _ "/data/report.pdf" Sample.world0 Hnew).
Defined.
